(** * TV Launcher: carousel and reorder state engine

    A shallow embedding of the carousel / navigation core of
    [tvlauncher_Windows.py] (class [TVLauncher]) and of the reorder layer of
    [modules/app_reorder.py] (class [ReorderMode] and the handlers installed by
    [integrate_reorder_mode]).

    Python integers are [Z]; [%] is Python's floored modulo, which is
    [Z.modulo]; lists are Rocq lists with Python's indexing rules written out
    (negative indices, [IndexError]); dictionaries are stdpp [gmap]s.  Methods
    are computations in a state-and-exception monad over the launcher object.
    Everything that is only rendering (style sheets, pixmaps, geometry) is left
    out; everything the outside world decides (dialog answers, the focused
    window, clock readings) is an explicit input. *)

From Stdlib Require Import ZArith QArith Bool Lia.
From stdpp Require Import gmap strings list.

Open Scope Z_scope.

(** ** Python values and exceptions *)

Inductive exn := IndexError | ZeroDivisionError | TypeError.

Inductive result (A : Type) : Type :=
| Ok (a : A)
| Raise (e : exn).
Arguments Ok {A} a.
Arguments Raise {A} e.

(** [len(l)] *)
Definition len {A} (l : list A) : Z := Z.of_nat (length l).

(** The position an in-range Python index denotes: negative indices count
    from the end. *)
Definition norm_index (n i : Z) : nat :=
  Z.to_nat (if i <? 0 then i + n else i).

Definition index_in_range (n i : Z) : bool := (- n <=? i) && (i <? n).

(** [l[i]] *)
Definition py_getitem {A} (l : list A) (i : Z) : result A :=
  if index_in_range (len l) i then
    match l !! norm_index (len l) i with
    | Some x => Ok x
    | None => Raise IndexError
    end
  else Raise IndexError.

(** [l.pop(i)]: the removed element and the remaining list. *)
Definition py_pop {A} (l : list A) (i : Z) : result (A * list A) :=
  if index_in_range (len l) i then
    match l !! norm_index (len l) i with
    | Some x => Ok (x, delete (norm_index (len l) i) l)
    | None => Raise IndexError
    end
  else Raise IndexError.

(** [l.insert(i, x)]: never raises, the index is clamped to [0, len(l)]. *)
Definition py_insert {A} (l : list A) (i : Z) (x : A) : list A :=
  let n := len l in
  let k := Z.to_nat (if i <? 0 then Z.max 0 (i + n) else Z.min i n) in
  take k l ++ x :: drop k l.

(** [a % b] *)
Definition py_mod (a b : Z) : result Z :=
  if b =? 0 then Raise ZeroDivisionError else Ok (a mod b).

(** ** Data model *)

(** An entry of [self.apps] (a dict with the keys name, path, icon). *)
Record App := { name : string; path : string; icon : string }.

(** The part of an [AppTile] widget the engine reads and writes. *)
Record AppTile := {
  app_data : App;
  app_index : Z;
  is_focused : bool
}.

(** The literals ["left"] and ["right"] passed to [animate_carousel]. *)
Inductive Direction := Left | Right.

Inductive Key :=
| Key_Left | Key_Right | Key_Up | Key_Down
| Key_Return | Key_Enter | Key_Escape | Key_Delete
| Key_E | Key_R | Key_Other.

(** What the engine asks of its collaborators, in the order it asks. *)
Inductive Effect :=
| PostEvent (k : Key)            (* QCoreApplication.postEvent(active_win, KeyPress k) *)
| SaveConfig (items : list App)  (* save_config() writing self.apps *)
| Popen (a : App)                (* subprocess.Popen(app['path']) *)
| LaunchError                    (* QMessageBox.critical "Launch Error" *)
| MenuAction (i : Z)             (* execute_menu_action on menu_buttons[i] *)
| CloseWindow                    (* self.close() *)
| SuperKeyPress (k : Key).       (* super().keyPressEvent(event) *)

(** The outside world as the engine observes it. *)
Record Env := {
  active_modal_or_popup : bool;    (* QApplication.activeModalWidget() / activePopupWidget() *)
  active_window : bool;            (* QApplication.activeWindow() is not None *)
  progress_dialog_visible : bool;  (* self.progress_dialog and its isVisible() *)
  remove_reply_yes : bool;         (* answer to the "Remove App" message box *)
  edit_reply : option App;         (* EditAppDialog accepted, with its data *)
  popen_pid : option Z             (* Popen succeeds with this pid, or raises *)
}.

(** [ReorderMode] object. A [QTimer] is [Some r] while active, with [r]
    milliseconds left, and [None] when stopped. *)
Record ReorderMode := {
  is_active : bool;
  selected_index : option Z;
  target_index : option Z;
  long_press_timer : option Z;
  last_button_times : gmap Z Q;
  recently_exited : bool;
  exit_cooldown_timer : option Z
}.

(** [TVLauncher] object. [animation_group] is [Some d] while the animation
    group runs; [d] is the direction its [finished] callback captured. *)
Record TVLauncher := {
  apps : list App;
  current_index : Z;
  tiles : list AppTile;
  menu_button_index : Z;
  is_in_menu : bool;
  animation_group : option Direction;
  is_animating : bool;
  button_cooldown : gmap Z Z;
  launched_process : option Z;
  inputs_enabled : bool;
  reorder_mode : ReorderMode;
  env : Env;
  effects : list Effect
}.

Definition max_visible_tiles : Z := 9.
Definition num_menu_buttons : Z := 3.

(** ** Attribute assignment *)

Definition set_is_active (v : bool) (r : ReorderMode) : ReorderMode :=
  {| is_active := v; selected_index := selected_index r;
     target_index := target_index r; long_press_timer := long_press_timer r;
     last_button_times := last_button_times r;
     recently_exited := recently_exited r;
     exit_cooldown_timer := exit_cooldown_timer r |}.

Definition set_selected_index (v : option Z) (r : ReorderMode) : ReorderMode :=
  {| is_active := is_active r; selected_index := v;
     target_index := target_index r; long_press_timer := long_press_timer r;
     last_button_times := last_button_times r;
     recently_exited := recently_exited r;
     exit_cooldown_timer := exit_cooldown_timer r |}.

Definition set_target_index (v : option Z) (r : ReorderMode) : ReorderMode :=
  {| is_active := is_active r; selected_index := selected_index r;
     target_index := v; long_press_timer := long_press_timer r;
     last_button_times := last_button_times r;
     recently_exited := recently_exited r;
     exit_cooldown_timer := exit_cooldown_timer r |}.

Definition set_long_press_timer (v : option Z) (r : ReorderMode) : ReorderMode :=
  {| is_active := is_active r; selected_index := selected_index r;
     target_index := target_index r; long_press_timer := v;
     last_button_times := last_button_times r;
     recently_exited := recently_exited r;
     exit_cooldown_timer := exit_cooldown_timer r |}.

Definition set_last_button_times (v : gmap Z Q) (r : ReorderMode) : ReorderMode :=
  {| is_active := is_active r; selected_index := selected_index r;
     target_index := target_index r; long_press_timer := long_press_timer r;
     last_button_times := v;
     recently_exited := recently_exited r;
     exit_cooldown_timer := exit_cooldown_timer r |}.

Definition set_recently_exited (v : bool) (r : ReorderMode) : ReorderMode :=
  {| is_active := is_active r; selected_index := selected_index r;
     target_index := target_index r; long_press_timer := long_press_timer r;
     last_button_times := last_button_times r;
     recently_exited := v;
     exit_cooldown_timer := exit_cooldown_timer r |}.

Definition set_exit_cooldown_timer (v : option Z) (r : ReorderMode) : ReorderMode :=
  {| is_active := is_active r; selected_index := selected_index r;
     target_index := target_index r; long_press_timer := long_press_timer r;
     last_button_times := last_button_times r;
     recently_exited := recently_exited r;
     exit_cooldown_timer := v |}.

Definition set_apps (v : list App) (s : TVLauncher) : TVLauncher :=
  {| apps := v; current_index := current_index s; tiles := tiles s;
     menu_button_index := menu_button_index s; is_in_menu := is_in_menu s;
     animation_group := animation_group s; is_animating := is_animating s;
     button_cooldown := button_cooldown s;
     launched_process := launched_process s;
     inputs_enabled := inputs_enabled s; reorder_mode := reorder_mode s;
     env := env s; effects := effects s |}.

Definition set_current_index (v : Z) (s : TVLauncher) : TVLauncher :=
  {| apps := apps s; current_index := v; tiles := tiles s;
     menu_button_index := menu_button_index s; is_in_menu := is_in_menu s;
     animation_group := animation_group s; is_animating := is_animating s;
     button_cooldown := button_cooldown s;
     launched_process := launched_process s;
     inputs_enabled := inputs_enabled s; reorder_mode := reorder_mode s;
     env := env s; effects := effects s |}.

Definition set_tiles (v : list AppTile) (s : TVLauncher) : TVLauncher :=
  {| apps := apps s; current_index := current_index s; tiles := v;
     menu_button_index := menu_button_index s; is_in_menu := is_in_menu s;
     animation_group := animation_group s; is_animating := is_animating s;
     button_cooldown := button_cooldown s;
     launched_process := launched_process s;
     inputs_enabled := inputs_enabled s; reorder_mode := reorder_mode s;
     env := env s; effects := effects s |}.

Definition set_menu_button_index (v : Z) (s : TVLauncher) : TVLauncher :=
  {| apps := apps s; current_index := current_index s; tiles := tiles s;
     menu_button_index := v; is_in_menu := is_in_menu s;
     animation_group := animation_group s; is_animating := is_animating s;
     button_cooldown := button_cooldown s;
     launched_process := launched_process s;
     inputs_enabled := inputs_enabled s; reorder_mode := reorder_mode s;
     env := env s; effects := effects s |}.

Definition set_is_in_menu (v : bool) (s : TVLauncher) : TVLauncher :=
  {| apps := apps s; current_index := current_index s; tiles := tiles s;
     menu_button_index := menu_button_index s; is_in_menu := v;
     animation_group := animation_group s; is_animating := is_animating s;
     button_cooldown := button_cooldown s;
     launched_process := launched_process s;
     inputs_enabled := inputs_enabled s; reorder_mode := reorder_mode s;
     env := env s; effects := effects s |}.

Definition set_animation_group (v : option Direction) (s : TVLauncher) : TVLauncher :=
  {| apps := apps s; current_index := current_index s; tiles := tiles s;
     menu_button_index := menu_button_index s; is_in_menu := is_in_menu s;
     animation_group := v; is_animating := is_animating s;
     button_cooldown := button_cooldown s;
     launched_process := launched_process s;
     inputs_enabled := inputs_enabled s; reorder_mode := reorder_mode s;
     env := env s; effects := effects s |}.

Definition set_is_animating (v : bool) (s : TVLauncher) : TVLauncher :=
  {| apps := apps s; current_index := current_index s; tiles := tiles s;
     menu_button_index := menu_button_index s; is_in_menu := is_in_menu s;
     animation_group := animation_group s; is_animating := v;
     button_cooldown := button_cooldown s;
     launched_process := launched_process s;
     inputs_enabled := inputs_enabled s; reorder_mode := reorder_mode s;
     env := env s; effects := effects s |}.

Definition set_button_cooldown (v : gmap Z Z) (s : TVLauncher) : TVLauncher :=
  {| apps := apps s; current_index := current_index s; tiles := tiles s;
     menu_button_index := menu_button_index s; is_in_menu := is_in_menu s;
     animation_group := animation_group s; is_animating := is_animating s;
     button_cooldown := v;
     launched_process := launched_process s;
     inputs_enabled := inputs_enabled s; reorder_mode := reorder_mode s;
     env := env s; effects := effects s |}.

Definition set_launched_process (v : option Z) (s : TVLauncher) : TVLauncher :=
  {| apps := apps s; current_index := current_index s; tiles := tiles s;
     menu_button_index := menu_button_index s; is_in_menu := is_in_menu s;
     animation_group := animation_group s; is_animating := is_animating s;
     button_cooldown := button_cooldown s;
     launched_process := v;
     inputs_enabled := inputs_enabled s; reorder_mode := reorder_mode s;
     env := env s; effects := effects s |}.

Definition set_inputs_enabled (v : bool) (s : TVLauncher) : TVLauncher :=
  {| apps := apps s; current_index := current_index s; tiles := tiles s;
     menu_button_index := menu_button_index s; is_in_menu := is_in_menu s;
     animation_group := animation_group s; is_animating := is_animating s;
     button_cooldown := button_cooldown s;
     launched_process := launched_process s;
     inputs_enabled := v; reorder_mode := reorder_mode s;
     env := env s; effects := effects s |}.

Definition set_reorder_mode (v : ReorderMode) (s : TVLauncher) : TVLauncher :=
  {| apps := apps s; current_index := current_index s; tiles := tiles s;
     menu_button_index := menu_button_index s; is_in_menu := is_in_menu s;
     animation_group := animation_group s; is_animating := is_animating s;
     button_cooldown := button_cooldown s;
     launched_process := launched_process s;
     inputs_enabled := inputs_enabled s; reorder_mode := v;
     env := env s; effects := effects s |}.

Definition set_env (v : Env) (s : TVLauncher) : TVLauncher :=
  {| apps := apps s; current_index := current_index s; tiles := tiles s;
     menu_button_index := menu_button_index s; is_in_menu := is_in_menu s;
     animation_group := animation_group s; is_animating := is_animating s;
     button_cooldown := button_cooldown s;
     launched_process := launched_process s;
     inputs_enabled := inputs_enabled s; reorder_mode := reorder_mode s;
     env := v; effects := effects s |}.

Definition emit (e : Effect) (s : TVLauncher) : TVLauncher :=
  {| apps := apps s; current_index := current_index s; tiles := tiles s;
     menu_button_index := menu_button_index s; is_in_menu := is_in_menu s;
     animation_group := animation_group s; is_animating := is_animating s;
     button_cooldown := button_cooldown s;
     launched_process := launched_process s;
     inputs_enabled := inputs_enabled s; reorder_mode := reorder_mode s;
     env := env s; effects := effects s ++ [e] |}.

(** ** The monad of methods: state of the launcher object, Python exceptions *)

Definition M (A : Type) : Type := TVLauncher -> result (A * TVLauncher).

Definition ret {A} (a : A) : M A := fun s => Ok (a, s).

Definition bind {A B} (c : M A) (k : A -> M B) : M B :=
  fun s => match c s with
           | Ok (a, s') => k a s'
           | Raise e => Raise e
           end.

Definition raise {A} (e : exn) : M A := fun _ => Raise e.

(** Read an attribute of [self]. *)
Definition gets {A} (f : TVLauncher -> A) : M A := fun s => Ok (f s, s).

(** Assign attributes of [self]. *)
Definition modify (f : TVLauncher -> TVLauncher) : M unit := fun s => Ok (tt, f s).

(** A pure Python operation that may raise. *)
Definition lift {A} (r : result A) : M A :=
  fun s => match r with Ok a => Ok (a, s) | Raise e => Raise e end.

(** Assign attributes of [self.reorder_mode]. *)
Definition modify_reorder (f : ReorderMode -> ReorderMode) : M unit :=
  modify (fun s => set_reorder_mode (f (reorder_mode s)) s).

(** Read an attribute of [self.reorder_mode]. *)
Definition gets_reorder {A} (f : ReorderMode -> A) : M A :=
  gets (fun s => f (reorder_mode s)).

(** An attribute that holds [None] or an int, used as an int. *)
Definition as_int (o : option Z) : M Z :=
  match o with Some z => ret z | None => raise TypeError end.

Notation "x <- c1 ;; c2" := (bind c1 (fun x => c2))
  (at level 100, c1 at next level, right associativity).
Notation "c1 ;;; c2" := (bind c1 (fun _ => c2))
  (at level 100, right associativity).

(** [for x in xs: f(x)] collecting the results. *)
Fixpoint mapM {A B} (f : A -> M B) (xs : list A) : M (list B) :=
  match xs with
  | [] => ret []
  | x :: xs' => y <- f x ;; ys <- mapM f xs' ;; ret (y :: ys)
  end.

(** The final state of a computation, when it returns. *)
Definition exec {A} (c : M A) (s : TVLauncher) : option TVLauncher :=
  match c s with Ok (_, s') => Some s' | Raise _ => None end.

(** Truth value of a list: [if self.apps], [if not self.tiles]. *)
Definition truthy {A} (l : list A) : bool :=
  match l with [] => false | _ :: _ => true end.

(** [l[i] = x] *)
Definition py_setitem {A} (l : list A) (i : Z) (x : A) : result (list A) :=
  if index_in_range (len l) i then Ok (<[norm_index (len l) i := x]> l)
  else Raise IndexError.

#[global] Instance Key_eq_dec : EqDecision Key.
Proof. solve_decision. Defined.

(** ** [AppTile] *)

(** [AppTile(app_data, ...)]: a fresh tile is not focused; [app_index] is
    assigned by the caller right after construction. *)
Definition new_tile (a : App) (idx : Z) : AppTile :=
  {| app_data := a; app_index := idx; is_focused := false |}.

(** [AppTile.set_focused] *)
Definition set_focused (focused : bool) (t : AppTile) : AppTile :=
  {| app_data := app_data t; app_index := app_index t; is_focused := focused |}.

(** ** [TVLauncher] *)

(** [self.apps[i]] *)
Definition apps_getitem (i : Z) : M App :=
  the_apps <- gets apps ;; lift (py_getitem the_apps i).

Definition save_config : M unit :=
  modify (fun s => emit (SaveConfig (apps s)) s).

Definition simulate_key_press (key : Key) : M unit :=
  e <- gets env ;;
  if active_window e then modify (emit (PostEvent key)) else ret tt.

Definition disable_inputs : M unit := modify (set_inputs_enabled false).
Definition enable_inputs : M unit := modify (set_inputs_enabled true).

(** Only the reads of [self.tiles] matter here: the loop adds up the widths
    of [tiles[0..3]] and reads [tiles[4]]. *)
Definition _position_all_tiles : M unit :=
  ts <- gets tiles ;;
  if negb (truthy ts) then ret tt else
  _ <- mapM (fun i => lift (py_getitem ts i)) (seqZ 0 4) ;;
  _ <- lift (py_getitem ts 4) ;;
  ret tt.

Definition build_infinite_carousel : M unit :=
  modify (set_tiles []) ;;;
  the_apps <- gets apps ;;
  if negb (truthy the_apps) then ret tt else
  cur <- gets current_index ;;
  (if len the_apps <=? cur then modify (set_current_index 0) else ret tt) ;;;
  let num_apps := len the_apps in
  let center_tile_index := 4 in
  new_tiles <- mapM (fun i =>
      let app_offset := i - center_tile_index in
      cur <- gets current_index ;;
      app_idx <- lift (py_mod (cur + app_offset) num_apps) ;;
      a <- apps_getitem app_idx ;;
      let is_focused := (i =? center_tile_index) in
      ret (set_focused is_focused (new_tile a app_idx)))
    (seqZ 0 max_visible_tiles) ;;
  modify (set_tiles new_tiles) ;;;
  _position_all_tiles ;;;
  cur <- gets current_index ;;
  _ <- apps_getitem cur ;;
  ret tt.

Definition animate_carousel (direction : Direction) : M unit :=
  s <- gets id ;;
  if is_animating s || negb (truthy (tiles s)) then ret tt else
  modify (set_is_animating true) ;;;
  modify (set_animation_group (Some direction)).

Definition reposition_tiles (direction : Direction) : M unit :=
  num_apps <- gets (fun s => len (apps s)) ;;
  let center_tile_index := 4%nat in
  (match direction with
   | Right =>
       ts <- gets tiles ;;
       popped <- lift (py_pop ts 0) ;;
       let first_tile := fst popped in
       modify (set_tiles (snd popped)) ;;;
       cur <- gets current_index ;;
       new_app_idx <- lift (py_mod (cur + 4) num_apps) ;;
       a <- apps_getitem new_app_idx ;;
       let first_tile :=
         {| app_data := a; app_index := new_app_idx;
            is_focused := is_focused first_tile |} in
       let first_tile := set_focused false first_tile in
       modify (fun s => set_tiles (tiles s ++ [first_tile]) s)
   | Left =>
       ts <- gets tiles ;;
       popped <- lift (py_pop ts (-1)) ;;
       let last_tile := fst popped in
       modify (set_tiles (snd popped)) ;;;
       cur <- gets current_index ;;
       new_app_idx <- lift (py_mod (cur - 4) num_apps) ;;
       a <- apps_getitem new_app_idx ;;
       let last_tile :=
         {| app_data := a; app_index := new_app_idx;
            is_focused := is_focused last_tile |} in
       let last_tile := set_focused false last_tile in
       modify (fun s => set_tiles (py_insert (tiles s) 0 last_tile) s)
   end) ;;;
  modify (fun s =>
    set_tiles (imap (fun i tile => set_focused (Nat.eqb i center_tile_index) tile)
                    (tiles s)) s) ;;;
  _position_all_tiles ;;;
  modify (set_is_animating false).

(** The [finished] signal of the running animation group: its callback is
    [lambda: self.reposition_tiles(direction)]. *)
Definition animation_finished : M unit :=
  g <- gets animation_group ;;
  match g with
  | None => ret tt
  | Some direction =>
      modify (set_animation_group None) ;;; reposition_tiles direction
  end.

Definition remove_current_app : M unit :=
  the_apps <- gets apps ;;
  if negb (truthy the_apps) then ret tt else
  cur <- gets current_index ;;
  _ <- apps_getitem cur ;;
  e <- gets env ;;
  (if remove_reply_yes e then
     popped <- lift (py_pop the_apps cur) ;;
     modify (set_apps (snd popped))
   else ret tt) ;;;
  s <- gets id ;;
  (if (len (apps s) <=? current_index s) && truthy (apps s) then
     modify (set_current_index (len (apps s) - 1))
   else if negb (truthy (apps s)) then
     modify (set_current_index 0)
   else ret tt) ;;;
  save_config ;;;
  build_infinite_carousel.

Definition edit_current_app : M unit :=
  the_apps <- gets apps ;;
  if negb (truthy the_apps) then ret tt else
  cur <- gets current_index ;;
  _ <- apps_getitem cur ;;
  e <- gets env ;;
  match edit_reply e with
  | Some app_data =>
      if negb (String.eqb (name app_data) EmptyString)
         && negb (String.eqb (path app_data) EmptyString) then
        cur <- gets current_index ;;
        the_apps <- gets apps ;;
        updated <- lift (py_setitem the_apps cur app_data) ;;
        modify (set_apps updated) ;;;
        save_config ;;;
        build_infinite_carousel
      else ret tt
  | None => ret tt
  end.

Definition launch_current_app : M unit :=
  the_apps <- gets apps ;;
  if negb (truthy the_apps) then ret tt else
  cur <- gets current_index ;;
  a <- apps_getitem cur ;;
  modify (emit (Popen a)) ;;;
  e <- gets env ;;
  match popen_pid e with
  | Some pid =>
      modify (set_launched_process (Some pid)) ;;;
      disable_inputs
  | None =>
      modify (emit LaunchError) ;;;
      enable_inputs
  end.

(** [menu_buttons] has three entries (restart, shutdown, close); the action
    itself belongs to the window system. *)
Definition execute_menu_action : M unit :=
  i <- gets menu_button_index ;;
  if index_in_range num_menu_buttons i then modify (emit (MenuAction i))
  else raise IndexError.

(** [TVLauncher.keyPressEvent]. [launch] is what [self.launch_current_app]
    is bound to on the instance when the event arrives. *)
Definition keyPressEvent (launch : M unit) (key : Key) (isAutoRepeat : bool) : M unit :=
  s <- gets id ;;
  if negb (inputs_enabled s) then ret tt else
  if progress_dialog_visible (env s) then ret tt else
  if isAutoRepeat && is_in_menu s
     && bool_decide (key = Key_Left \/ key = Key_Right) then ret tt else
  if isAutoRepeat && bool_decide (key = Key_Up \/ key = Key_Down) then ret tt else
  match key with
  | Key_Down =>
      if negb (is_in_menu s) then
        modify (set_is_in_menu true) ;;;
        modify (set_menu_button_index 0)
      else ret tt
  | Key_Up =>
      if is_in_menu s then modify (set_is_in_menu false) else ret tt
  | Key_Right =>
      if is_in_menu s then
        i <- lift (py_mod (menu_button_index s + 1) num_menu_buttons) ;;
        modify (set_menu_button_index i)
      else if truthy (apps s) && negb (is_animating s) then
        i <- lift (py_mod (current_index s + 1) (len (apps s))) ;;
        modify (set_current_index i) ;;;
        animate_carousel Right
      else ret tt
  | Key_Left =>
      if is_in_menu s then
        i <- lift (py_mod (menu_button_index s - 1) num_menu_buttons) ;;
        modify (set_menu_button_index i)
      else if truthy (apps s) && negb (is_animating s) then
        i <- lift (py_mod (current_index s - 1) (len (apps s))) ;;
        modify (set_current_index i) ;;;
        animate_carousel Left
      else ret tt
  | Key_Return | Key_Enter =>
      if is_in_menu s then execute_menu_action
      else if truthy (apps s) then launch
      else ret tt
  | Key_Delete =>
      if negb (is_in_menu s) && truthy (apps s) then remove_current_app
      else ret tt
  | Key_E =>
      if negb (is_in_menu s) && truthy (apps s) then edit_current_app
      else ret tt
  | Key_Escape =>
      if is_in_menu s then modify (set_is_in_menu false)
      else modify (emit CloseWindow)
  | Key_R | Key_Other => modify (emit (SuperKeyPress key))
  end.

(** [TVLauncher.handle_button]; [current_time] is the reading of
    [pygame.time.get_ticks()], in milliseconds. *)
Definition handle_button (button_index current_time : Z) : M unit :=
  cd <- gets button_cooldown ;;
  if match cd !! button_index with
     | Some t => current_time - t <? 300
     | None => false
     end
  then ret tt else
  modify (set_button_cooldown (<[button_index := current_time]> cd)) ;;;
  if button_index =? 0 then simulate_key_press Key_Return
  else if button_index =? 1 then simulate_key_press Key_Escape
  else if button_index =? 2 then simulate_key_press Key_E
  else if button_index =? 3 then simulate_key_press Key_Delete
  else if button_index =? 9 then
    in_menu <- gets is_in_menu ;;
    simulate_key_press (if negb in_menu then Key_Down else Key_Up)
  else ret tt.

(** ** [ReorderMode] *)

Definition long_press_duration : Z := 800.

(** [a < b] on clock readings in seconds ([time.time()]), taken as exact
    rationals. *)
Definition Qltb (a b : Q) : bool := negb (Qle_bool b a).

Definition _clear_exit_cooldown : M unit :=
  modify_reorder (set_recently_exited false).

Definition _is_dialog_active : M bool :=
  e <- gets env ;; ret (active_modal_or_popup e).

(** Overlay, instruction label, position badges and border colours: these
    methods only restyle widgets. *)
Definition _show_reorder_ui : M unit := ret tt.
Definition _hide_reorder_ui : M unit := ret tt.
Definition _update_tile_highlights : M unit := ret tt.

Definition start_long_press : M unit :=
  s <- gets id ;;
  dialog <- _is_dialog_active ;;
  if negb (is_active (reorder_mode s))
     && truthy (apps s)
     && negb (recently_exited (reorder_mode s))
     && negb (is_in_menu s)
     && negb dialog
  then modify_reorder (set_long_press_timer (Some long_press_duration))
  else ret tt.

Definition cancel_long_press : M unit :=
  t <- gets_reorder long_press_timer ;;
  if bool_decide (t <> None) then modify_reorder (set_long_press_timer None)
  else ret tt.

Definition force_cancel_all_timers : M unit :=
  t <- gets_reorder long_press_timer ;;
  (if bool_decide (t <> None) then modify_reorder (set_long_press_timer None)
   else ret tt) ;;;
  t <- gets_reorder exit_cooldown_timer ;;
  if bool_decide (t <> None) then modify_reorder (set_exit_cooldown_timer None)
  else ret tt.

Definition _activate_reorder : M unit :=
  modify_reorder (set_long_press_timer None) ;;;
  s <- gets id ;;
  dialog <- _is_dialog_active ;;
  if truthy (apps s)
     && negb (is_active (reorder_mode s))
     && negb (is_in_menu s)
     && negb dialog
  then
    modify_reorder (set_is_active true) ;;;
    modify_reorder (set_selected_index (Some (current_index s))) ;;;
    modify_reorder (set_target_index (Some (current_index s))) ;;;
    _show_reorder_ui ;;;
    _update_tile_highlights ;;;
    _ <- apps_getitem (current_index s) ;;
    ret tt
  else ret tt.

Definition move_left : M bool :=
  active <- gets_reorder is_active ;;
  if negb active then ret false else
  num_apps <- gets (fun s => len (apps s)) ;;
  t <- gets_reorder target_index ;;
  target <- as_int t ;;
  if num_apps <=? 5 then
    if 0 <? target then
      modify_reorder (set_target_index (Some (target - 1))) ;;;
      _update_tile_highlights ;;;
      ret true
    else ret false
  else
    new_target <- lift (py_mod (target - 1) num_apps) ;;
    modify_reorder (set_target_index (Some new_target)) ;;;
    modify (set_current_index new_target) ;;;
    animate_carousel Left ;;;
    ret true.

Definition move_right : M bool :=
  active <- gets_reorder is_active ;;
  if negb active then ret false else
  num_apps <- gets (fun s => len (apps s)) ;;
  t <- gets_reorder target_index ;;
  target <- as_int t ;;
  if num_apps <=? 5 then
    if target <? num_apps - 1 then
      modify_reorder (set_target_index (Some (target + 1))) ;;;
      _update_tile_highlights ;;;
      ret true
    else ret false
  else
    new_target <- lift (py_mod (target + 1) num_apps) ;;
    modify_reorder (set_target_index (Some new_target)) ;;;
    modify (set_current_index new_target) ;;;
    animate_carousel Right ;;;
    ret true.

Definition _exit_reorder : M unit :=
  modify_reorder (set_is_active false) ;;;
  modify_reorder (set_selected_index None) ;;;
  modify_reorder (set_target_index None) ;;;
  _hide_reorder_ui ;;;
  modify_reorder (set_recently_exited true) ;;;
  modify_reorder (set_exit_cooldown_timer (Some 500)) ;;;
  cancel_long_press.

Definition confirm_reorder : M bool :=
  active <- gets_reorder is_active ;;
  if negb active then ret false else
  modify_reorder (set_recently_exited true) ;;;
  r <- gets reorder_mode ;;
  (if bool_decide (selected_index r <> target_index r) then
     selected <- as_int (selected_index r) ;;
     the_apps <- gets apps ;;
     popped <- lift (py_pop the_apps selected) ;;
     let app_to_move := fst popped in
     target <- as_int (target_index r) ;;
     modify (set_apps (py_insert (snd popped) target app_to_move)) ;;;
     modify (set_current_index target) ;;;
     save_config
   else ret tt) ;;;
  _exit_reorder ;;;
  build_infinite_carousel ;;;
  modify_reorder (set_exit_cooldown_timer (Some 1000)) ;;;
  ret true.

(** While a session is active [selected_index] holds an int; the model
    raises where Python would store [None] in [current_index]. *)
Definition cancel_reorder : M bool :=
  active <- gets_reorder is_active ;;
  if negb active then ret false else
  original_index <- gets_reorder selected_index ;;
  _exit_reorder ;;;
  original <- as_int original_index ;;
  modify (set_current_index original) ;;;
  build_infinite_carousel ;;;
  ret true.

(** [current_time] is the reading of [time.time()], in seconds. *)
Definition handle_joypad_button (button_index : Z) (current_time : Q) : M bool :=
  times <- gets_reorder last_button_times ;;
  if match times !! button_index with
     | Some t => Qltb (Qminus current_time t) (3 # 10)
     | None => false
     end
  then ret false else
  modify_reorder (set_last_button_times (<[button_index := current_time]> times)) ;;;
  if (button_index =? 5) || (button_index =? 10) then
    dialog <- _is_dialog_active ;;
    in_menu <- gets is_in_menu ;;
    if dialog || in_menu then ret false else
    s <- gets id ;;
    if negb (is_active (reorder_mode s)) then
      if truthy (apps s) && negb (recently_exited (reorder_mode s)) then
        _activate_reorder ;;;
        ret true
      else ret false
    else
      cancel_reorder ;;;
      ret true
  else ret false.

(** ** The handlers installed by [integrate_reorder_mode] *)

Definition enhanced_launch : M unit :=
  force_cancel_all_timers ;;;
  modify_reorder (set_recently_exited false) ;;;
  launch_current_app.

(** [original_key_press]: the launcher's own [keyPressEvent], which finds
    [enhanced_launch] under [self.launch_current_app]. *)
Definition original_key_press : Key -> bool -> M unit :=
  keyPressEvent enhanced_launch.

Definition enhanced_key_press (key : Key) (isAutoRepeat : bool) : M unit :=
  if isAutoRepeat then original_key_press key isAutoRepeat else
  if bool_decide (key = Key_R) then
    dialog <- _is_dialog_active ;;
    in_menu <- gets is_in_menu ;;
    if dialog || in_menu then original_key_press key isAutoRepeat else
    s <- gets id ;;
    if negb (is_active (reorder_mode s)) then
      if truthy (apps s) && negb (recently_exited (reorder_mode s)) then
        _activate_reorder
      else ret tt
    else
      cancel_reorder ;;;
      ret tt
  else
  active <- gets_reorder is_active ;;
  handled <-
    (if active then
       match key with
       | Key_Left => move_left
       | Key_Right => move_right
       | Key_Return | Key_Enter => confirm_reorder
       | Key_Escape => cancel_reorder
       | _ => ret false
       end
     else
       match key with
       | Key_Return | Key_Enter =>
           in_menu <- gets is_in_menu ;;
           dialog <- _is_dialog_active ;;
           (if negb in_menu && negb dialog then start_long_press else ret tt) ;;;
           ret false
       | _ => ret false
       end) ;;
  if handled then ret tt else original_key_press key isAutoRepeat.

Definition enhanced_key_release (key : Key) (isAutoRepeat : bool) : M unit :=
  if isAutoRepeat then ret tt else
  match key with
  | Key_Return | Key_Enter =>
      active <- gets_reorder is_active ;;
      if negb active then cancel_long_press else ret tt
  | _ => ret tt
  end.

(** [ticks] is the reading of [pygame.time.get_ticks()] and [now] that of
    [time.time()] when the button is polled. *)
Definition enhanced_handle_button (button_index ticks : Z) (now : Q) : M unit :=
  exited <- gets_reorder recently_exited ;;
  if exited then ret tt else
  active <- gets_reorder is_active ;;
  if active && (button_index =? 0) then confirm_reorder ;;; ret tt else
  if active && (button_index =? 1) then cancel_reorder ;;; ret tt else
  handled <- handle_joypad_button button_index now ;;
  if handled then ret tt else
  handle_button button_index ticks.

(** ** Timers of the event loop

    [elapse dt] lets [dt] milliseconds pass with no input: a timer with more
    than [dt] left keeps running, one with at most [dt] left fires its
    callback.  The exit-cooldown timer is single shot; the long-press timer is
    stopped by its own callback. *)
Definition elapse (dt : Z) : M unit :=
  t <- gets_reorder exit_cooldown_timer ;;
  (match t with
   | Some r =>
       if dt <? r then modify_reorder (set_exit_cooldown_timer (Some (r - dt)))
       else modify_reorder (set_exit_cooldown_timer None) ;;; _clear_exit_cooldown
   | None => ret tt
   end) ;;;
  t <- gets_reorder long_press_timer ;;
  match t with
  | Some r =>
      if dt <? r then modify_reorder (set_long_press_timer (Some (r - dt)))
      else _activate_reorder
  | None => ret tt
  end.

(** ** Start-up *)

(** [ReorderMode.__init__] *)
Definition ReorderMode_init : ReorderMode :=
  {| is_active := false; selected_index := None; target_index := None;
     long_press_timer := None; last_button_times := ∅;
     recently_exited := false; exit_cooldown_timer := None |}.

(** The attributes [TVLauncher.__init__] sets before it builds the
    carousel, with [integrate_reorder_mode] applied; [config_apps] is the
    list read from the configuration file. *)
Definition TVLauncher_init (config_apps : list App) (e : Env) : TVLauncher :=
  {| apps := config_apps; current_index := 0; tiles := [];
     menu_button_index := 0; is_in_menu := false;
     animation_group := None; is_animating := false;
     button_cooldown := ∅; launched_process := None;
     inputs_enabled := true; reorder_mode := ReorderMode_init;
     env := e; effects := [] |}.

(** ** Vocabulary of the properties *)

(** The centred window of item indices around [center], in slot order:
    offsets -4 .. 4 for the nine slots. *)
Definition window (center n : Z) : list Z :=
  (fun k => (center + k) mod n) <$> seqZ (-4) 9.

Definition bound_indices (s : TVLauncher) : list Z := app_index <$> tiles s.

(** Nine slots, only the one at position 4 focused. *)
Definition center_only : list bool :=
  [false; false; false; false; true; false; false; false; false].



(** The focus index one scroll step away from [c]. *)
Definition step_index (d : Direction) (c n : Z) : Z :=
  match d with Right => (c + 1) mod n | Left => (c - 1) mod n end.

Definition key_of (d : Direction) : Key :=
  match d with Left => Key_Left | Right => Key_Right end.

(** Right commands minus left commands. *)
Fixpoint net_steps (cmds : list Direction) : Z :=
  match cmds with
  | [] => 0
  | Right :: cmds' => 1 + net_steps cmds'
  | Left :: cmds' => -1 + net_steps cmds'
  end.

(** The guard under which [keyPressEvent] takes a left/right key as a
    scroll of the carousel. *)
Definition scroll_accepted (s : TVLauncher) : bool :=
  inputs_enabled s && negb (progress_dialog_visible (env s))
  && negb (is_in_menu s) && truthy (apps s) && negb (is_animating s).

(** What happens to a launcher that is being browsed. *)
Inductive BrowseEvent :=
| Press (d : Direction)   (* a left/right key press, not an auto-repeat *)
| AnimationFinished.      (* the running animation group finishes *)

(** Deliver the events in order; the result lists the scroll commands that
    were accepted. *)
Fixpoint browse (launch : M unit) (evs : list BrowseEvent) : M (list Direction) :=
  match evs with
  | [] => ret []
  | Press d :: evs' =>
      accepted <- gets scroll_accepted ;;
      keyPressEvent launch (key_of d) false ;;;
      rest <- browse launch evs' ;;
      ret (if accepted then d :: rest else rest)
  | AnimationFinished :: evs' =>
      animation_finished ;;;
      browse launch evs'
  end.

(** Every command is followed by the end of its animation. *)
Definition paced (cmds : list Direction) : list BrowseEvent :=
  flat_map (fun d => [Press d; AnimationFinished]) cmds.

(** What happens during a reorder session. *)
Inductive ReorderEvent :=
| Move (d : Direction)
| MoveAnimationFinished.

Fixpoint reorder_events (evs : list ReorderEvent) : M unit :=
  match evs with
  | [] => ret tt
  | Move Left :: evs' => move_left ;;; reorder_events evs'
  | Move Right :: evs' => move_right ;;; reorder_events evs'
  | MoveAnimationFinished :: evs' => animation_finished ;;; reorder_events evs'
  end.

(** Enter reorder mode, move about, cancel. *)
Definition cancelled_session (evs : list ReorderEvent) : M bool :=
  _activate_reorder ;;;
  reorder_events evs ;;;
  cancel_reorder.

(** The two ways a session ends, with the cooldown each leaves running. *)
Inductive SessionEnd := Confirmed | Cancelled.

Definition end_session (e : SessionEnd) : M bool :=
  match e with Confirmed => confirm_reorder | Cancelled => cancel_reorder end.

Definition cooldown_window (e : SessionEnd) : Z :=
  match e with Confirmed => 1000 | Cancelled => 500 end.

(** Polls of controller buttons, each with the two clock readings taken
    while it is handled. *)
Fixpoint poll_buttons (polls : list (Z * Z * Q)) : M unit :=
  match polls with
  | [] => ret tt
  | (button_index, ticks, now) :: polls' =>
      enhanced_handle_button button_index ticks now ;;;
      poll_buttons polls'
  end.

(** The buttons [handle_button] translates into a key press. *)
Definition bound_button (button_index : Z) : bool :=
  bool_decide (button_index ∈ [0; 1; 2; 3; 9]).

(** What the events of browsing never disturb. *)
Definition browsable (s : TVLauncher) : Prop :=
  0 < len (apps s) /\ 0 <= current_index s < len (apps s)
  /\ length (tiles s) = 9%nat.

(** A well-formed active session: the item at [i] is being moved, the
    target is [j], both are positions of the store. *)
Definition session (s : TVLauncher) (i j : Z) : Prop :=
  is_active (reorder_mode s) = true
  /\ selected_index (reorder_mode s) = Some i
  /\ target_index (reorder_mode s) = Some j
  /\ 0 <= i < len (apps s)
  /\ 0 <= j < len (apps s)
  /\ 0 <= current_index s.

(** The reorder object right after a session ended, with [w] milliseconds
    of exit cooldown to run. *)
Definition exited_mode (w : Z) (r : ReorderMode) : ReorderMode :=
  {| is_active := false; selected_index := None; target_index := None;
     long_press_timer := None; last_button_times := last_button_times r;
     recently_exited := true; exit_cooldown_timer := Some w |}.

(** Concrete stores and surroundings for the examples. *)
Definition item (n : string) : App := {| name := n; path := n; icon := "" |}.

Definition quiet_env : Env :=
  {| active_modal_or_popup := false; active_window := true;
     progress_dialog_visible := false; remove_reply_yes := true;
     edit_reply := None; popen_pid := Some 4242 |}.

Definition store5 : list App :=
  [item "A"; item "B"; item "C"; item "D"; item "E"].

Definition store6 : list App :=
  [item "A"; item "B"; item "C"; item "D"; item "E"; item "F"].

Definition store3 : list App := [item "A"; item "B"; item "C"].

(** The launcher as it comes up on a store: [__init__] ends by building the
    carousel. *)
Definition started (config_apps : list App) : TVLauncher :=
  default (TVLauncher_init config_apps quiet_env)
    (exec build_infinite_carousel (TVLauncher_init config_apps quiet_env)).

(** A session entered on a freshly started launcher (focus index 0). *)
Definition activated (config_apps : list App) : TVLauncher :=
  default (started config_apps) (exec _activate_reorder (started config_apps)).

(** The target index a reorder command leaves behind, when it returns. *)
Definition target_after (c : M bool) (s : TVLauncher) : option Z :=
  match c s with
  | Ok (_, s') => target_index (reorder_mode s')
  | Raise _ => None
  end.

(** The keys of the commit scenario: scroll right once so that the focus
    is on the second item, toggle reorder mode with R, move right twice,
    confirm with Return. *)
Definition commit_prefix : M unit :=
  enhanced_key_press Key_Right false ;;;
  animation_finished ;;;
  enhanced_key_press Key_R false ;;;
  enhanced_key_press Key_Right false ;;;
  enhanced_key_press Key_Right false.

Definition commit_scenario : M unit :=
  commit_prefix ;;;
  enhanced_key_press Key_Return false.

(** The session of the scenario just before it is confirmed. *)
Definition pending_commit : TVLauncher :=
  default (started store5) (exec commit_prefix (started store5)).

(** What the events of a reorder session never disturb: the session stays
    active on the item selected at [i], over the store [items]. *)
Definition in_session (items : list App) (i : Z) (s : TVLauncher) : Prop :=
  browsable s
  /\ apps s = items
  /\ is_active (reorder_mode s) = true
  /\ selected_index (reorder_mode s) = Some i
  /\ exists j, target_index (reorder_mode s) = Some j.

(** The reorder object once the exit cooldown has run out. *)
Definition idle_mode (r : ReorderMode) : ReorderMode :=
  {| is_active := false; selected_index := None; target_index := None;
     long_press_timer := None; last_button_times := last_button_times r;
     recently_exited := false; exit_cooldown_timer := None |}.

(** The reorder debounce lets a poll of [button_index] at [now] through. *)
Definition debounce_passed (button_index : Z) (now : Q) (s : TVLauncher) : Prop :=
  match last_button_times (reorder_mode s) !! button_index with
  | Some t => Qltb (Qminus now t) (3 # 10) = false
  | None => True
  end.

(** Every way of entering reorder mode is refused in [s]: the long-press
    start and the controller buttons change nothing at all, the R key and the
    reorder button handler leave the session inactive and no long press
    pending. *)
Definition reentry_rejected (s : TVLauncher) : Prop :=
  start_long_press s = Ok (tt, s)
  /\ (forall b ticks now, enhanced_handle_button b ticks now s = Ok (tt, s))
  /\ (exists s', enhanced_key_press Key_R false s = Ok (tt, s')
                 /\ reorder_mode s' = reorder_mode s)
  /\ (forall b now, exists s',
        handle_joypad_button b now s = Ok (false, s')
        /\ is_active (reorder_mode s') = false
        /\ long_press_timer (reorder_mode s') = None).

(** Every way of entering reorder mode works in [s]: the R key and the
    toggle buttons (5 and 10) activate at once, the long-press start arms the
    timer and the session is active when it fires. *)
Definition reentry_succeeds (s : TVLauncher) : Prop :=
  (exists s', enhanced_key_press Key_R false s = Ok (tt, s')
              /\ is_active (reorder_mode s') = true)
  /\ (exists s1 s',
        start_long_press s = Ok (tt, s1)
        /\ long_press_timer (reorder_mode s1) = Some long_press_duration
        /\ elapse long_press_duration s1 = Ok (tt, s')
        /\ is_active (reorder_mode s') = true)
  /\ (forall b ticks now,
        b = 5 \/ b = 10 -> debounce_passed b now s ->
        exists s', enhanced_handle_button b ticks now s = Ok (tt, s')
                   /\ is_active (reorder_mode s') = true).

(** * Proofs *)

(** ** Symbolic execution of methods *)

Ltac munfold :=
  cbv beta iota zeta delta
    [bind ret gets modify lift raise modify_reorder gets_reorder as_int id
     _update_tile_highlights _show_reorder_ui _hide_reorder_ui
     _is_dialog_active].

Ltac unfold_setters :=
  unfold set_apps, set_current_index, set_tiles, set_menu_button_index,
    set_is_in_menu, set_animation_group, set_is_animating, set_button_cooldown,
    set_launched_process, set_inputs_enabled, set_reorder_mode, set_env, emit,
    set_is_active, set_selected_index, set_target_index, set_long_press_timer,
    set_last_button_times, set_recently_exited, set_exit_cooldown_timer in *.

Ltac fsimp :=
  unfold_setters;
  cbn [apps current_index tiles menu_button_index is_in_menu animation_group
       is_animating button_cooldown launched_process inputs_enabled
       reorder_mode env effects
       is_active selected_index target_index long_press_timer
       last_button_times recently_exited exit_cooldown_timer
       active_modal_or_popup active_window progress_dialog_visible
       remove_reply_yes edit_reply popen_pid
       app_data app_index is_focused set_focused new_tile
       negb andb orb fst snd] in *.

Ltac msimp := munfold; fsimp.

(** ** Python lists *)

Lemma len_nonneg {A} (l : list A) : 0 <= len l.
Proof. unfold len. lia. Qed.

Lemma truthy_len {A} (l : list A) : truthy l = true <-> 0 < len l.
Proof.
  destruct l; cbn; unfold len; cbn [length]; split; intros; try lia; done.
Qed.

Lemma truthy_false_nil {A} (l : list A) : truthy l = false -> l = [].
Proof. destruct l; [done | discriminate]. Qed.

Lemma py_mod_ok a n : n <> 0 -> py_mod a n = Ok (a mod n).
Proof.
  intros Hn. unfold py_mod. destruct (Z.eqb_spec n 0); [lia | reflexivity].
Qed.

Lemma index_in_range_nonneg n i : 0 <= i < n -> index_in_range n i = true.
Proof. unfold index_in_range. lia. Qed.

Lemma norm_index_nonneg n i : 0 <= i -> norm_index n i = Z.to_nat i.
Proof.
  intros. unfold norm_index. destruct (Z.ltb_spec i 0); [lia | reflexivity].
Qed.

Lemma py_getitem_ok {A} (l : list A) i :
  0 <= i < len l -> exists x, py_getitem l i = Ok x /\ l !! Z.to_nat i = Some x.
Proof.
  intros Hi. unfold py_getitem.
  rewrite index_in_range_nonneg, norm_index_nonneg by lia.
  destruct (l !! Z.to_nat i) as [x|] eqn:E; [eauto|].
  apply lookup_ge_None in E. unfold len in Hi. lia.
Qed.

Lemma py_pop_ok {A} (l : list A) i x :
  0 <= i -> l !! Z.to_nat i = Some x ->
  py_pop l i = Ok (x, delete (Z.to_nat i) l).
Proof.
  intros Hi Hx. unfold py_pop.
  assert (Z.to_nat i < length l)%nat by (eapply lookup_lt_Some; eauto).
  rewrite index_in_range_nonneg, norm_index_nonneg by (unfold len; lia).
  rewrite Hx. reflexivity.
Qed.

Lemma py_pop_first {A} (l : list A) x : py_pop (x :: l) 0 = Ok (x, l).
Proof. apply (py_pop_ok (x :: l) 0 x); [lia | reflexivity]. Qed.

Lemma py_pop_last {A} (l : list A) x : py_pop (l ++ [x]) (-1) = Ok (x, l).
Proof.
  unfold py_pop, index_in_range, norm_index, len.
  rewrite length_app. cbn [length Z.ltb Z.compare].
  replace (Z.to_nat (-1 + Z.of_nat (length l + 1))) with (length l) by lia.
  rewrite list_lookup_middle by reflexivity.
  rewrite (proj2 (Z.leb_le _ _)), (proj2 (Z.ltb_lt _ _)) by lia.
  cbn [andb]. f_equal. f_equal.
  rewrite delete_middle. apply app_nil_r.
Qed.

Lemma py_insert_front {A} (l : list A) x : py_insert l 0 x = x :: l.
Proof.
  unfold py_insert. cbn [Z.ltb Z.compare].
  rewrite Z.min_l by apply len_nonneg. reflexivity.
Qed.

Lemma py_insert_nonneg {A} (l : list A) i x :
  0 <= i <= len l ->
  py_insert l i x = take (Z.to_nat i) l ++ x :: drop (Z.to_nat i) l.
Proof.
  intros Hi. unfold py_insert.
  destruct (Z.ltb_spec i 0); [lia|]. rewrite Z.min_l by lia. reflexivity.
Qed.

Lemma py_insert_lookup {A} (l : list A) i x :
  0 <= i <= len l -> py_insert l i x !! Z.to_nat i = Some x.
Proof.
  intros Hi. rewrite py_insert_nonneg by done.
  apply list_lookup_middle. rewrite length_take. unfold len in Hi. lia.
Qed.

Lemma len_py_insert {A} (l : list A) i x : len (py_insert l i x) = len l + 1.
Proof.
  unfold py_insert, len. rewrite length_app. cbn [length].
  rewrite length_take, length_drop. lia.
Qed.

Lemma len_delete {A} (l : list A) (k : nat) :
  (k < length l)%nat -> len (delete k l) = len l - 1.
Proof.
  intros Hk. unfold len.
  rewrite length_delete by (by apply lookup_lt_is_Some_2). lia.
Qed.

(** ** Loops *)

Lemma mapM_Forall2 {A B} (f : A -> M B) (P : A -> B -> Prop) xs s :
  (forall x, x ∈ xs -> exists y, f x s = Ok (y, s) /\ P x y) ->
  exists ys, mapM f xs s = Ok (ys, s) /\ Forall2 P xs ys.
Proof.
  induction xs as [|x xs IH]; intros Hf.
  - exists []. split; [reflexivity | constructor].
  - destruct (Hf x) as (y & Hy & HP); [left|].
    destruct IH as (ys & Hys & HF); [intros; apply Hf; by right|].
    exists (y :: ys). split; [|by constructor].
    cbn [mapM]. unfold bind at 1. rewrite Hy.
    unfold bind at 1. rewrite Hys. reflexivity.
Qed.

Lemma mapM_frame {A B} (f : A -> M B) xs :
  (forall x s y s', f x s = Ok (y, s') -> s' = s) ->
  forall s ys s', mapM f xs s = Ok (ys, s') -> s' = s.
Proof.
  intros Hf. induction xs as [|x xs IH]; intros s ys s' H.
  - cbn in H. unfold ret in H. congruence.
  - cbn [mapM] in H. unfold bind at 1 in H.
    destruct (f x s) as [[y s1]|] eqn:E1; [|discriminate].
    apply Hf in E1. subst s1.
    unfold bind at 1 in H.
    destruct (mapM f xs s) as [[ys1 s2]|] eqn:E2; [|discriminate].
    apply IH in E2. subst s2. unfold ret in H. congruence.
Qed.

Lemma Forall2_fmap_eq {A B C} (g : B -> C) (h : A -> C) xs ys :
  Forall2 (fun x y => g y = h x) xs ys -> g <$> ys = h <$> xs.
Proof. induction 1; cbn; congruence. Qed.

(** ** The carousel *)

Lemma position_all_tiles_ok s :
  (5 <= length (tiles s))%nat -> _position_all_tiles s = Ok (tt, s).
Proof.
  intros Hlen. unfold _position_all_tiles.
  cbv beta iota zeta delta [bind gets].
  assert (Ht : truthy (tiles s) = true) by (apply truthy_len; unfold len; lia).
  rewrite Ht. cbn [negb].
  destruct (mapM_Forall2 (fun i => lift (py_getitem (tiles s) i)) (fun _ _ => True)
              (seqZ 0 4) s) as (ys & -> & _).
  { intros i Hi. apply elem_of_seqZ in Hi.
    destruct (py_getitem_ok (tiles s) i) as (t & Ht' & _); [unfold len; lia|].
    exists t. unfold lift. rewrite Ht'. done. }
  destruct (py_getitem_ok (tiles s) 4) as (t & -> & _); [unfold len; lia|].
  reflexivity.
Qed.

Lemma build_infinite_carousel_empty s :
  truthy (apps s) = false ->
  build_infinite_carousel s = Ok (tt, set_tiles [] s).
Proof.
  intros Happs. unfold build_infinite_carousel. msimp. rewrite Happs.
  reflexivity.
Qed.

Lemma build_infinite_carousel_spec s :
  truthy (apps s) = true -> 0 <= current_index s ->
  let cur' := if len (apps s) <=? current_index s then 0 else current_index s in
  exists new_tiles,
    build_infinite_carousel s
      = Ok (tt, set_tiles new_tiles (set_current_index cur' s))
    /\ app_index <$> new_tiles = window cur' (len (apps s))
    /\ is_focused <$> new_tiles = center_only.
Proof.
  intros Happs Hcur cur'.
  pose proof (proj1 (truthy_len _) Happs) as Hn.
  assert (Hc : 0 <= cur' < len (apps s))
    by (subst cur'; destruct (Z.leb_spec (len (apps s)) (current_index s)); lia).
  unfold build_infinite_carousel, apps_getitem. msimp. rewrite Happs. fsimp.
  assert (Hstep : (if len (apps s) <=? current_index s
                   then modify (set_current_index 0) else ret tt) (set_tiles [] s)
                  = Ok (tt, set_current_index cur' (set_tiles [] s))).
  { subst cur'. destruct (len (apps s) <=? current_index s); [reflexivity|].
    destruct s; reflexivity. }
  unfold modify, ret in Hstep. fsimp. rewrite Hstep. clear Hstep.
  match goal with |- context [mapM ?f ?xs ?s0] =>
    destruct (mapM_Forall2 f
      (fun i t => app_index t = (cur' + (i - 4)) mod len (apps s)
                  /\ is_focused t = (i =? 4)) xs s0) as (new_tiles & Hmap & HF)
  end.
  { intros i _. fsimp. rewrite py_mod_ok by lia. fsimp.
    destruct (py_getitem_ok (apps s) ((cur' + (i - 4)) mod len (apps s)))
      as (a & -> & _); [apply Z.mod_pos_bound; lia|].
    eexists. split; [reflexivity|]. fsimp. done. }
  rewrite Hmap. fsimp.
  assert (Hlen : length new_tiles = 9%nat).
  { apply Forall2_length in HF. rewrite <- HF. reflexivity. }
  rewrite position_all_tiles_ok by (fsimp; lia). fsimp.
  destruct (py_getitem_ok (apps s) cur') as (a & -> & _); [lia|].
  exists new_tiles. split; [reflexivity|]. split.
  - rewrite (Forall2_fmap_eq app_index
               (fun i => (cur' + (i - 4)) mod len (apps s))
               (seqZ 0 max_visible_tiles) new_tiles); [reflexivity|].
    eapply Forall2_impl; [exact HF|]. cbn. intros ? ? [-> _]. done.
  - rewrite (Forall2_fmap_eq is_focused (fun i => i =? 4)
               (seqZ 0 max_visible_tiles) new_tiles); [reflexivity|].
    eapply Forall2_impl; [exact HF|]. cbn. intros ? ? [_ ->]. done.
Qed.

(** The recycle step on nine slots: the slot that fell off is rebound to the
    item four places ahead of the focus, on the side scrolled to. *)
Lemma reposition_tiles_ok d s :
  0 < len (apps s) -> length (tiles s) = 9%nat ->
  exists new_tiles,
    reposition_tiles d s = Ok (tt, set_is_animating false (set_tiles new_tiles s))
    /\ app_index <$> new_tiles =
         match d with
         | Right => drop 1 (bound_indices s)
                    ++ [(current_index s + 4) mod len (apps s)]
         | Left => (current_index s - 4) mod len (apps s)
                   :: take 8 (bound_indices s)
         end
    /\ is_focused <$> new_tiles = center_only.
Proof.
  intros Hn Hlen. unfold bound_indices.
  destruct (tiles s) as [|t0 [|t1 [|t2 [|t3 [|t4 [|t5 [|t6 [|t7 [|t8 [|]]]]]]]]]] eqn:Et;
    try discriminate.
  unfold reposition_tiles, apps_getitem.
  assert (Hm : forall x, 0 <= x mod len (apps s) < len (apps s))
    by (intros; apply Z.mod_pos_bound; lia).
  destruct d; msimp; rewrite Et.
  - change [t0; t1; t2; t3; t4; t5; t6; t7; t8]
      with ([t0; t1; t2; t3; t4; t5; t6; t7] ++ [t8]).
    rewrite py_pop_last. fsimp. rewrite py_mod_ok by lia. fsimp.
    destruct (py_getitem_ok (apps s) ((current_index s - 4) mod len (apps s)))
      as (a & -> & _); [apply Hm|].
    fsimp. rewrite py_insert_front. cbn [imap compose Nat.eqb]. fsimp.
    rewrite position_all_tiles_ok by (cbn; lia). fsimp.
    eexists. split; [reflexivity|]. split; reflexivity.
  - rewrite py_pop_first. fsimp. rewrite py_mod_ok by lia. fsimp.
    destruct (py_getitem_ok (apps s) ((current_index s + 4) mod len (apps s)))
      as (a & -> & _); [apply Hm|].
    fsimp. cbn [Datatypes.app imap compose Nat.eqb]. fsimp.
    rewrite position_all_tiles_ok by (cbn; lia). fsimp.
    eexists. split; [reflexivity|]. split; reflexivity.
Qed.





Lemma scroll_accepted_true s :
  scroll_accepted s = true ->
  inputs_enabled s = true /\ progress_dialog_visible (env s) = false
  /\ is_in_menu s = false /\ truthy (apps s) = true /\ is_animating s = false.
Proof.
  unfold scroll_accepted. rewrite !andb_true_iff, !negb_true_iff. tauto.
Qed.

(** An accepted scroll key: the focus index moves one step and, when there
    are tiles, the animation starts. *)
Lemma keyPressEvent_scroll launch d s :
  scroll_accepted s = true ->
  keyPressEvent launch (key_of d) false s
  = Ok (tt,
        if truthy (tiles s) then
          set_animation_group (Some d)
            (set_is_animating true
               (set_current_index
                  (step_index d (current_index s) (len (apps s))) s))
        else set_current_index (step_index d (current_index s) (len (apps s))) s).
Proof.
  intros Hacc.
  destruct (scroll_accepted_true s Hacc) as (Hi & Hp & Hm & Ha & Han).
  pose proof (proj1 (truthy_len _) Ha) as Hn.
  unfold keyPressEvent. munfold. rewrite Hi, Hp, Hm. cbn [negb andb].
  destruct d; cbn [key_of step_index]; rewrite Ha, Han; cbn [negb andb];
    rewrite py_mod_ok by lia; unfold animate_carousel; msimp;
    rewrite Han; cbn [orb]; destruct (truthy (tiles s)); reflexivity.
Qed.

(** A scroll key that is not accepted leaves the focus index, the store
    and the animation alone. *)
Lemma keyPressEvent_scroll_dropped launch d s :
  scroll_accepted s = false ->
  exists s', keyPressEvent launch (key_of d) false s = Ok (tt, s')
    /\ current_index s' = current_index s /\ apps s' = apps s
    /\ tiles s' = tiles s /\ is_animating s' = is_animating s
    /\ animation_group s' = animation_group s
    /\ inputs_enabled s' = inputs_enabled s /\ env s' = env s
    /\ is_in_menu s' = is_in_menu s.
Proof.
  intros Hacc. unfold scroll_accepted in Hacc.
  unfold keyPressEvent. munfold.
  destruct (inputs_enabled s) eqn:Hi; cbn [negb]; [|eauto 10].
  destruct (progress_dialog_visible (env s)) eqn:Hp; [eauto 10|].
  cbn [andb negb] in Hacc |- *.
  destruct (is_in_menu s) eqn:Hm.
  - destruct d; cbn [key_of];
      (rewrite py_mod_ok by (unfold num_menu_buttons; lia));
      eexists; (split; [reflexivity|]); fsimp; rewrite ?Hi, ?Hm; tauto.
  - cbn [andb negb] in Hacc.
    destruct d; cbn [key_of]; rewrite Hacc; eauto 10.
Qed.



(** ** Browsing *)

Lemma center_only_length (ts : list AppTile) :
  is_focused <$> ts = center_only -> length ts = 9%nat.
Proof. intros H. rewrite <- (length_fmap is_focused), H. reflexivity. Qed.

Lemma animation_finished_browsable s :
  browsable s ->
  exists s', animation_finished s = Ok (tt, s')
    /\ browsable s' /\ current_index s' = current_index s
    /\ apps s' = apps s /\ inputs_enabled s' = inputs_enabled s
    /\ env s' = env s /\ is_in_menu s' = is_in_menu s
    /\ reorder_mode s' = reorder_mode s
    /\ (animation_group s <> None -> is_animating s' = false).
Proof.
  intros (Hn & Hc & Hlen). unfold animation_finished. munfold.
  destruct (animation_group s) as [d|] eqn:Hg.
  - destruct (reposition_tiles_ok d (set_animation_group None s))
      as (new_tiles & Hrun & _ & Hfoc); [done | done |].
    rewrite Hrun. eexists. split; [reflexivity|]. fsimp.
    apply center_only_length in Hfoc.
    unfold browsable. fsimp. tauto.
  - eexists. split; [reflexivity|]. unfold browsable. tauto.
Qed.

Lemma step_index_range d c n : 0 < n -> 0 <= step_index d c n < n.
Proof. intros. destruct d; apply Z.mod_pos_bound; lia. Qed.

Lemma net_steps_cons d cmds :
  net_steps (d :: cmds) = (match d with Right => 1 | Left => -1 end) + net_steps cmds.
Proof. destruct d; reflexivity. Qed.

Lemma step_index_then d c n k :
  (step_index d c n + k) mod n
  = (c + ((match d with Right => 1 | Left => -1 end) + k)) mod n.
Proof.
  destruct d; cbn [step_index]; rewrite Zplus_mod_idemp_l; f_equal; lia.
Qed.

(** Any trace of key presses and animation ends: the focus index is the
    initial one plus the net count of the accepted commands, modulo N. *)
Lemma browse_trace_index launch evs :
  forall s, browsable s ->
  exists acc s',
    browse launch evs s = Ok (acc, s')
    /\ current_index s' = (current_index s + net_steps acc) mod len (apps s)
    /\ apps s' = apps s.
Proof.
  induction evs as [|ev evs IH]; intros s Hb.
  - exists [], s. split; [reflexivity|]. split; [|reflexivity].
    destruct Hb as (_ & Hc & _). cbn [net_steps].
    rewrite Z.add_0_r, Z.mod_small; lia.
  - destruct ev as [d|]; cbn [browse]; unfold bind at 1.
    + unfold gets at 1. unfold bind at 1.
      destruct (scroll_accepted s) eqn:Hacc.
      * rewrite keyPressEvent_scroll by done.
        destruct Hb as (Hn & Hc & Hlen).
        assert (Ht : truthy (tiles s) = true)
          by (apply truthy_len; unfold len; lia).
        rewrite Ht. unfold bind at 1.
        match goal with |- context [browse launch evs ?st] =>
          destruct (IH st) as (acc & s' & Hrun & Hidx & Happs)
        end.
        { unfold browsable. fsimp. split; [done|]. split; [|done].
          by apply step_index_range. }
        rewrite Hrun. exists (d :: acc), s'.
        split; [reflexivity|]. fsimp. split; [|done].
        rewrite Hidx, step_index_then, net_steps_cons. reflexivity.
      * destruct (keyPressEvent_scroll_dropped launch d s Hacc)
          as (s1 & Hrun1 & Hc1 & Ha1 & Ht1 & _).
        rewrite Hrun1.
        destruct (IH s1) as (acc & s' & Hrun & Hidx & Happs).
        { unfold browsable. rewrite Hc1, Ha1, Ht1. exact Hb. }
        unfold bind at 1. rewrite Hrun. exists acc, s'.
        split; [reflexivity|]. rewrite Hidx, Happs, Hc1, Ha1. done.
    + destruct (animation_finished_browsable s Hb)
        as (s1 & Hrun1 & Hb1 & Hc1 & Ha1 & _).
      rewrite Hrun1.
      destruct (IH s1 Hb1) as (acc & s' & Hrun & Hidx & Happs).
      rewrite Hrun. exists acc, s'.
      split; [reflexivity|]. rewrite Hidx, Happs, Hc1, Ha1. done.
Qed.

(** Commands issued one per animation are all accepted. *)
Lemma browse_paced_index launch cmds :
  forall s, browsable s -> scroll_accepted s = true ->
  exists s',
    browse launch (paced cmds) s = Ok (cmds, s')
    /\ current_index s' = (current_index s + net_steps cmds) mod len (apps s)
    /\ apps s' = apps s.
Proof.
  induction cmds as [|d cmds IH]; intros s Hb Hacc.
  - exists s. split; [reflexivity|]. split; [|reflexivity].
    destruct Hb as (_ & Hc & _). cbn [net_steps].
    rewrite Z.add_0_r, Z.mod_small; lia.
  - change (paced (d :: cmds))
      with (Press d :: AnimationFinished :: paced cmds).
    cbn [browse]. unfold bind at 1. unfold gets at 1. rewrite Hacc.
    unfold bind at 1. rewrite keyPressEvent_scroll by done.
    destruct (scroll_accepted_true s Hacc) as (Hi & Hp & Hm & Ha & Han).
    destruct Hb as (Hn & Hc & Hlen).
    assert (Ht : truthy (tiles s) = true)
      by (apply truthy_len; unfold len; lia).
    rewrite Ht. unfold bind at 1. unfold bind at 1.
    match goal with |- context [animation_finished ?st] =>
      destruct (animation_finished_browsable st)
        as (s1 & Hrun1 & Hb1 & Hc1 & Ha1 & Hi1 & He1 & Hm1 & _ & Han1)
    end.
    { unfold browsable. fsimp. split; [done|]. split; [|done].
      by apply step_index_range. }
    fsimp. rewrite Hrun1.
    destruct (IH s1 Hb1) as (s' & Hrun & Hidx & Happs).
    { unfold scroll_accepted.
      rewrite Hi1, He1, Hm1, Ha1, Han1 by discriminate.
      rewrite Hi, Hp, Hm, Ha. reflexivity. }
    rewrite Hrun. exists s'. split; [reflexivity|].
    rewrite Hidx, Happs, Hc1, Ha1. split; [|done].
    rewrite step_index_then, net_steps_cons. reflexivity.
Qed.

(** C2 (circularity). With N > 0 items and the focus index in [0, N):
    whatever left/right key presses and animation ends arrive while
    browsing, the run returns, the store is untouched and the focus index
    ends at (initial + net_steps) mod N, where net_steps counts the accepted
    right commands minus the accepted left commands; and when each command
    waits for the previous animation, every one of the K commands is
    accepted. *)
Theorem focus_index_circular :
  forall (launch : M unit) (s : TVLauncher),
    0 < len (apps s) ->
    0 <= current_index s < len (apps s) ->
    length (tiles s) = 9%nat ->
    (forall evs, exists acc s',
       browse launch evs s = Ok (acc, s')
       /\ current_index s' = (current_index s + net_steps acc) mod len (apps s)
       /\ apps s' = apps s)
    /\
    (scroll_accepted s = true ->
     forall cmds, exists s',
       browse launch (paced cmds) s = Ok (cmds, s')
       /\ current_index s' = (current_index s + net_steps cmds) mod len (apps s)
       /\ apps s' = apps s).
Proof.
  intros launch s Hn Hc Hlen.
  assert (Hb : browsable s) by (unfold browsable; tauto).
  split.
  - intros evs. by apply browse_trace_index.
  - intros Hacc cmds. by apply browse_paced_index.
Qed.

Lemma focus_index_circular_witness :
  exists s',
    browse launch_current_app (paced [Left; Left; Right; Left]) (started store6)
      = Ok ([Left; Left; Right; Left], s')
    /\ current_index s' = 4
    /\ apps s' = store6.
Proof.
  destruct (focus_index_circular launch_current_app (started store6))
    as [_ H].
  - reflexivity.
  - split; [reflexivity | reflexivity].
  - reflexivity.
  - apply (H eq_refl [Left; Left; Right; Left]).
Defined.

(** ** Reorder mode *)

(** C6 (small-list clamp). In an active session with target [j]: with at most
    five items, move-left and move-right return with the target at
    max(0, j-1) and min(N-1, j+1), so it stays in [0, N-1] and never wraps;
    with more than five items they return with the target at (j-1) mod N and
    (j+1) mod N, so move-left from target 0 yields N-1. *)
Theorem reorder_move_clamps_small_wraps_large :
  forall (s : TVLauncher) (j : Z),
    is_active (reorder_mode s) = true ->
    target_index (reorder_mode s) = Some j ->
    (len (apps s) <= 5 -> 0 <= j <= len (apps s) - 1 ->
     target_after move_left s = Some (Z.max 0 (j - 1))
     /\ target_after move_right s = Some (Z.min (len (apps s) - 1) (j + 1))
     /\ 0 <= Z.max 0 (j - 1) <= len (apps s) - 1
     /\ 0 <= Z.min (len (apps s) - 1) (j + 1) <= len (apps s) - 1)
    /\
    (5 < len (apps s) ->
     target_after move_left s = Some ((j - 1) mod len (apps s))
     /\ target_after move_right s = Some ((j + 1) mod len (apps s))
     /\ (j = 0 -> target_after move_left s = Some (len (apps s) - 1))).
Proof.
  intros s j Hact Htgt. split.
  - intros Hsmall Hj. unfold target_after, move_left, move_right. msimp.
    rewrite Hact. fsimp. rewrite Htgt. fsimp.
    destruct (Z.leb_spec (len (apps s)) 5) as [_|]; [|lia].
    split; [|split; [|lia]].
    + destruct (Z.ltb_spec 0 j); fsimp.
      * f_equal. lia.
      * rewrite Htgt. f_equal. lia.
    + destruct (Z.ltb_spec j (len (apps s) - 1)); fsimp.
      * f_equal. lia.
      * rewrite Htgt. f_equal. lia.
  - intros Hbig.
    assert (Hl : target_after move_left s = Some ((j - 1) mod len (apps s))).
    { unfold target_after, move_left. msimp. rewrite Hact. fsimp. rewrite Htgt. fsimp.
      destruct (Z.leb_spec (len (apps s)) 5); [lia|].
      rewrite py_mod_ok by lia. unfold animate_carousel. msimp.
      destruct (is_animating s || negb (truthy (tiles s))); reflexivity. }
    split; [exact Hl|]. split.
    + unfold target_after, move_right. msimp. rewrite Hact. fsimp. rewrite Htgt. fsimp.
      destruct (Z.leb_spec (len (apps s)) 5); [lia|].
      rewrite py_mod_ok by lia. unfold animate_carousel. msimp.
      destruct (is_animating s || negb (truthy (tiles s))); reflexivity.
    + intros ->. rewrite Hl. f_equal.
      rewrite <- (Z.mod_small (len (apps s) - 1) (len (apps s))) by lia.
      rewrite <- (Z_mod_plus_full (0 - 1) 1 (len (apps s))). f_equal. lia.
Qed.

Lemma reorder_move_clamps_small_wraps_large_witness :
  (target_after move_left (activated store3) = Some 0
   /\ target_after move_right (activated store3) = Some 1)
  /\ target_after move_left (activated store6) = Some 5.
Proof.
  split.
  - destruct (reorder_move_clamps_small_wraps_large (activated store3) 0)
      as [H _]; [reflexivity | reflexivity |].
    destruct H as (Hl & Hr & _); [vm_compute; discriminate | vm_compute; split; discriminate |].
    split; [exact Hl | exact Hr].
  - destruct (reorder_move_clamps_small_wraps_large (activated store6) 0)
      as [_ H]; [reflexivity | reflexivity |].
    destruct H as (_ & _ & H); [reflexivity |].
    apply H. reflexivity.
Defined.

Lemma exit_reorder_eq s :
  _exit_reorder s = Ok (tt, set_reorder_mode (exited_mode 500 (reorder_mode s)) s).
Proof.
  destruct s as [? ? ? ? ? ? ? ? ? ? r ? ?].
  destruct r as [? ? ? [lp|] ? ? ?]; reflexivity.
Qed.

(** Cancel: the focus returns to the selected index and the slots are
    rebuilt around it. *)
Lemma cancel_reorder_spec s i :
  is_active (reorder_mode s) = true ->
  selected_index (reorder_mode s) = Some i ->
  0 <= i < len (apps s) ->
  exists new_tiles,
    cancel_reorder s
      = Ok (true,
            set_tiles new_tiles
              (set_current_index i
                 (set_reorder_mode (exited_mode 500 (reorder_mode s)) s)))
    /\ app_index <$> new_tiles = window i (len (apps s))
    /\ is_focused <$> new_tiles = center_only.
Proof.
  intros Hact Hsel Hi. unfold cancel_reorder. munfold.
  rewrite Hact. cbn [negb]. rewrite exit_reorder_eq. fsimp. rewrite Hsel.
  match goal with |- context [build_infinite_carousel ?st] =>
    destruct (build_infinite_carousel_spec st) as (new_tiles & Hrun & Hidx & Hfoc)
  end; [fsimp; apply truthy_len; lia | fsimp; lia |].
  fsimp. destruct (Z.leb_spec (len (apps s)) i); [lia|].
  fsimp. rewrite Hrun. exists new_tiles. split; [reflexivity|]. done.
Qed.

(** Confirm with the target away from the selected index: the item is
    popped, inserted at the target, the focus follows it, the store is saved
    and the slots are rebuilt. *)
Lemma confirm_reorder_moved s i j :
  is_active (reorder_mode s) = true ->
  selected_index (reorder_mode s) = Some i ->
  target_index (reorder_mode s) = Some j ->
  i <> j -> 0 <= i < len (apps s) -> 0 <= j < len (apps s) ->
  exists x new_tiles,
    apps s !! Z.to_nat i = Some x
    /\ confirm_reorder s
        = Ok (true,
              set_reorder_mode (exited_mode 1000 (reorder_mode s))
                (set_tiles new_tiles
                   (emit (SaveConfig (py_insert (delete (Z.to_nat i) (apps s)) j x))
                      (set_current_index j
                         (set_apps (py_insert (delete (Z.to_nat i) (apps s)) j x)
                            s)))))
    /\ app_index <$> new_tiles = window j (len (apps s))
    /\ is_focused <$> new_tiles = center_only.
Proof.
  intros Hact Hsel Htgt Hne Hi Hj.
  destruct (py_getitem_ok (apps s) i Hi) as (x & _ & Hx).
  assert (Hlen : len (py_insert (delete (Z.to_nat i) (apps s)) j x) = len (apps s)).
  { rewrite len_py_insert, len_delete; [lia|]. unfold len in Hi. lia. }
  exists x. unfold confirm_reorder, save_config. munfold.
  rewrite Hact. cbn [negb]. fsimp. rewrite Hsel, Htgt.
  rewrite bool_decide_true by congruence. fsimp.
  rewrite (py_pop_ok (apps s) i x) by (done || lia). fsimp.
  rewrite exit_reorder_eq. fsimp.
  match goal with |- context [build_infinite_carousel ?st] =>
    destruct (build_infinite_carousel_spec st) as (new_tiles & Hrun & Hidx & Hfoc)
  end; [fsimp; apply truthy_len; lia | fsimp; lia |].
  fsimp. rewrite Hlen in *. destruct (Z.leb_spec (len (apps s)) j); [lia|].
  fsimp. rewrite Hrun. exists new_tiles. split; [done|].
  split; [reflexivity|]. done.
Qed.

(** Confirm with the target on the selected index: nothing moves. *)
Lemma confirm_reorder_same s i :
  is_active (reorder_mode s) = true ->
  selected_index (reorder_mode s) = Some i ->
  target_index (reorder_mode s) = Some i ->
  0 < len (apps s) -> 0 <= current_index s ->
  exists new_tiles,
    confirm_reorder s
    = Ok (true,
          set_reorder_mode (exited_mode 1000 (reorder_mode s))
            (set_tiles new_tiles
               (set_current_index
                  (if len (apps s) <=? current_index s then 0
                   else current_index s) s))).
Proof.
  intros Hact Hsel Htgt Hn Hc.
  unfold confirm_reorder. munfold.
  rewrite Hact. cbn [negb]. fsimp. rewrite Hsel, Htgt.
  rewrite bool_decide_false by (intros H; by apply H).
  rewrite exit_reorder_eq. fsimp.
  match goal with |- context [build_infinite_carousel ?st] =>
    destruct (build_infinite_carousel_spec st) as (new_tiles & Hrun & Hidx & Hfoc)
  end; [fsimp; apply truthy_len; lia | fsimp; lia |].
  fsimp. rewrite Hrun. exists new_tiles. reflexivity.
Qed.

(** C1 (reorder commit). On the store [A,B,C,D,E]: scrolling to index 1
    (B), entering reorder mode, moving the target to index 3 and confirming
    returns with the store [A,C,D,B,E] and the focus index 3.  In general,
    confirming a session whose target [j] differs from the selected index [i]
    returns with the item of position [i] removed and reinserted at position
    [j], and with the focus index equal to [j]. *)
Theorem reorder_commit_moves_item :
  (exists s',
     commit_scenario (started store5) = Ok (tt, s')
     /\ apps s' = [item "A"; item "C"; item "D"; item "B"; item "E"]
     /\ current_index s' = 3)
  /\
  (forall (s : TVLauncher) (i j : Z),
     is_active (reorder_mode s) = true ->
     selected_index (reorder_mode s) = Some i ->
     target_index (reorder_mode s) = Some j ->
     i <> j -> 0 <= i < len (apps s) -> 0 <= j < len (apps s) ->
     exists x s',
       apps s !! Z.to_nat i = Some x
       /\ confirm_reorder s = Ok (true, s')
       /\ apps s' = py_insert (delete (Z.to_nat i) (apps s)) j x
       /\ apps s' !! Z.to_nat j = Some x
       /\ current_index s' = j
       /\ is_active (reorder_mode s') = false).
Proof.
  split.
  - eexists. split; [vm_compute; reflexivity|]. split; reflexivity.
  - intros s i j Hact Hsel Htgt Hne Hi Hj.
    destruct (confirm_reorder_moved s i j) as (x & new_tiles & Hx & Hrun & _);
      try done.
    exists x. eexists. split; [exact Hx|]. split; [exact Hrun|].
    split; [reflexivity|]. split; [|split; reflexivity].
    change (py_insert (delete (Z.to_nat i) (apps s)) j x !! Z.to_nat j = Some x).
    apply py_insert_lookup. rewrite len_delete; unfold len in *; lia.
Qed.

Lemma reorder_commit_moves_item_witness :
  exists s',
    confirm_reorder pending_commit = Ok (true, s')
    /\ apps s' = [item "A"; item "C"; item "D"; item "B"; item "E"]
    /\ current_index s' = 3.
Proof.
  destruct reorder_commit_moves_item as [_ H].
  destruct (H pending_commit 1 3) as (x & s' & Hx & Hrun & Happs & _ & Hcur & _).
  - reflexivity.
  - reflexivity.
  - reflexivity.
  - discriminate.
  - vm_compute. split; discriminate || reflexivity.
  - vm_compute. split; discriminate || reflexivity.
  - exists s'. split; [exact Hrun|]. split; [|exact Hcur].
    vm_compute in Hx. injection Hx as <-. rewrite Happs. reflexivity.
Defined.

Lemma move_in_session items i d s :
  in_session items i s ->
  exists b s',
    (match d with Left => move_left | Right => move_right end) s = Ok (b, s')
    /\ in_session items i s'.
Proof.
  intros ((Hn & Hc & Hlen) & Happs & Hact & Hsel & j & Htgt).
  assert (Hm : forall x, 0 <= x mod len (apps s) < len (apps s))
    by (intros; apply Z.mod_pos_bound; lia).
  destruct d; unfold move_left, move_right; msimp;
    rewrite Hact; fsimp; rewrite Htgt; fsimp;
    (destruct (Z.leb_spec (len (apps s)) 5);
     [ match goal with
       | |- context [if ?c then _ else _] => destruct c
       end;
       eexists; eexists; (split; [reflexivity|]);
       unfold in_session, browsable; fsimp; eauto 10
     | rewrite py_mod_ok by lia; unfold animate_carousel; msimp;
       destruct (is_animating s || negb (truthy (tiles s)));
       eexists; eexists; (split; [reflexivity|]);
       unfold in_session, browsable; fsimp; eauto 10 ]).
Qed.

Lemma reorder_events_in_session items i evs :
  forall s, in_session items i s ->
  exists s', reorder_events evs s = Ok (tt, s') /\ in_session items i s'.
Proof.
  induction evs as [|ev evs IH]; intros s Hs.
  - exists s. split; [reflexivity | exact Hs].
  - destruct ev as [d|].
    + destruct (move_in_session items i d s Hs) as (b & s1 & Hrun1 & Hs1).
      destruct (IH s1 Hs1) as (s' & Hrun & Hs').
      exists s'. split; [|exact Hs'].
      destruct d; cbn [reorder_events]; unfold bind at 1;
        rewrite Hrun1; exact Hrun.
    + destruct Hs as (Hb & Happs & Hact & Hsel & Htgt).
      destruct (animation_finished_browsable s Hb)
        as (s1 & Hrun1 & Hb1 & _ & Ha1 & _ & _ & _ & Hr1 & _).
      destruct (IH s1) as (s' & Hrun & Hs').
      { unfold in_session. rewrite Hr1, Ha1. tauto. }
      exists s'. split; [|exact Hs'].
      cbn [reorder_events]. unfold bind at 1. rewrite Hrun1. exact Hrun.
Qed.

(** C5 (cancel leaves everything as it was). With N > 0 items, no menu and
    no dialog, entering reorder mode at focus index [i] (selected = target =
    [i]), then any finite sequence of move-left / move-right commands and
    animation ends, then cancel: the run returns true, the store is the same
    sequence as before and the focus index is [i] again. *)
Theorem cancel_restores_store_and_focus :
  forall (s : TVLauncher) (evs : list ReorderEvent),
    0 < len (apps s) ->
    0 <= current_index s < len (apps s) ->
    length (tiles s) = 9%nat ->
    is_active (reorder_mode s) = false ->
    is_in_menu s = false ->
    active_modal_or_popup (env s) = false ->
    exists s',
      cancelled_session evs s = Ok (true, s')
      /\ apps s' = apps s
      /\ current_index s' = current_index s
      /\ is_active (reorder_mode s') = false.
Proof.
  intros s evs Hn Hc Hlen Hact Hmenu Hdlg.
  unfold cancelled_session. unfold bind at 1.
  assert (Hentry : exists s1, _activate_reorder s = Ok (tt, s1)
                     /\ in_session (apps s) (current_index s) s1).
  { unfold _activate_reorder, apps_getitem. msimp.
    rewrite (proj2 (truthy_len _) Hn), Hact, Hmenu, Hdlg. fsimp.
    destruct (py_getitem_ok (apps s) (current_index s) Hc) as (a & -> & _).
    eexists. split; [reflexivity|].
    unfold in_session, browsable. fsimp. eauto 10. }
  destruct Hentry as (s1 & -> & Hs1).
  destruct (reorder_events_in_session _ _ evs s1 Hs1) as (s2 & Hrun2 & Hs2).
  unfold bind at 1. rewrite Hrun2.
  destruct Hs2 as ((Hn2 & _ & _) & Happs2 & Hact2 & Hsel2 & _).
  destruct (cancel_reorder_spec s2 (current_index s) Hact2 Hsel2)
    as (new_tiles & Hrun3 & _); [rewrite Happs2; exact Hc|].
  rewrite Hrun3. eexists. split; [reflexivity|]. fsimp. done.
Qed.

Lemma cancel_restores_store_and_focus_witness :
  exists s',
    cancelled_session
      [Move Left; Move Left; MoveAnimationFinished; Move Right] (started store6)
      = Ok (true, s')
    /\ apps s' = store6
    /\ current_index s' = 0
    /\ is_active (reorder_mode s') = false.
Proof.
  apply (cancel_restores_store_and_focus (started store6)
           [Move Left; Move Left; MoveAnimationFinished; Move Right]).
  - reflexivity.
  - split; [discriminate | reflexivity].
  - reflexivity.
  - reflexivity.
  - reflexivity.
  - reflexivity.
Defined.

(** ** Controller buttons *)

Lemma bound_button_cases b :
  bound_button b = true -> b = 0 \/ b = 1 \/ b = 2 \/ b = 3 \/ b = 9.
Proof.
  unfold bound_button. intros H. apply bool_decide_eq_true in H.
  repeat (apply elem_of_cons in H as [H|H]; [tauto|]).
  by apply elem_of_nil in H.
Qed.

(** The key a bound button stands for. *)
Lemma handle_button_fresh b t s :
  bound_button b = true ->
  button_cooldown s !! b = None ->
  active_window (env s) = true ->
  exists k,
    handle_button b t s
    = Ok (tt, emit (PostEvent k) (set_button_cooldown (<[b := t]> (button_cooldown s)) s)).
Proof.
  intros Hb Hcd Hwin. unfold handle_button. munfold. rewrite Hcd.
  destruct (bound_button_cases b Hb) as [-> | [-> | [-> | [-> | ->]]]];
    cbn [Z.eqb Pos.eqb]; unfold simulate_key_press; msimp; rewrite Hwin;
    eexists; reflexivity.
Qed.

(** C9 (the exit cooldown blocks every button). While [recently_exited] is
    set, the controller button handler returns at once for every button
    index: the launcher is left exactly as it was, so no key event is posted
    and neither the reorder handler nor the original handler runs, for one
    poll and for any sequence of polls.  Once [_clear_exit_cooldown] has
    run, a fresh press of a bound button outside a session reaches the
    original handler and posts its key event. *)
Theorem cooldown_blocks_every_button :
  forall s : TVLauncher,
    recently_exited (reorder_mode s) = true ->
    (forall b ticks now, enhanced_handle_button b ticks now s = Ok (tt, s))
    /\ (forall polls, poll_buttons polls s = Ok (tt, s))
    /\ (forall b ticks now,
          is_active (reorder_mode s) = false ->
          bound_button b = true ->
          button_cooldown s !! b = None ->
          last_button_times (reorder_mode s) !! b = None ->
          active_window (env s) = true ->
          exists s1 s2 k,
            _clear_exit_cooldown s = Ok (tt, s1)
            /\ enhanced_handle_button b ticks now s1 = Ok (tt, s2)
            /\ effects s2 = effects s ++ [PostEvent k]).
Proof.
  intros s Hex.
  assert (Hone : forall b ticks now, enhanced_handle_button b ticks now s = Ok (tt, s)).
  { intros. unfold enhanced_handle_button. munfold. rewrite Hex. reflexivity. }
  split; [exact Hone|]. split.
  - induction polls as [|[[b ticks] now] polls IH]; [reflexivity|].
    cbn [poll_buttons]. unfold bind. rewrite Hone. exact IH.
  - intros b ticks now Hact Hb Hcd Hlt Hwin.
    assert (Hnt : (b =? 5) || (b =? 10) = false)
      by (destruct (bound_button_cases b Hb) as [-> | [-> | [-> | [-> | ->]]]];
          reflexivity).
    assert (H2 : exists s2 k,
               enhanced_handle_button b ticks now
                 (set_reorder_mode (set_recently_exited false (reorder_mode s)) s)
               = Ok (tt, s2)
               /\ effects s2 = effects s ++ [PostEvent k]).
    { unfold enhanced_handle_button, handle_joypad_button. msimp.
      rewrite Hact. fsimp. rewrite Hlt. fsimp. rewrite Hnt. fsimp.
      match goal with |- context [handle_button b ticks ?st] =>
        destruct (handle_button_fresh b ticks st) as (k & Hk);
          [done | done | done |]
      end.
      rewrite Hk. eexists. exists k. split; reflexivity. }
    destruct H2 as (s2 & k & HB & HC).
    exists (set_reorder_mode (set_recently_exited false (reorder_mode s)) s), s2, k.
    split; [reflexivity|]. split; [exact HB | exact HC].
Qed.

Lemma cooldown_blocks_every_button_witness :
  exists s1,
    confirm_reorder pending_commit = Ok (true, s1)
    /\ enhanced_handle_button 0 100 (1 # 10) s1 = Ok (tt, s1)
    /\ poll_buttons [(0, 100, 1 # 10); (3, 112, 1 # 9); (5, 124, 1 # 8)] s1
       = Ok (tt, s1)
    /\ exists s2 s3 k,
         _clear_exit_cooldown s1 = Ok (tt, s2)
         /\ enhanced_handle_button 0 1100 (11 # 10) s2 = Ok (tt, s3)
         /\ effects s3 = effects s1 ++ [PostEvent k].
Proof.
  eexists. split; [vm_compute; reflexivity|].
  match goal with |- enhanced_handle_button _ _ _ ?st = _ /\ _ =>
    destruct (cooldown_blocks_every_button st) as (H1 & H2 & H3)
  end; [reflexivity|].
  split; [apply H1|]. split; [apply H2|].
  apply H3; reflexivity.
Defined.

(** ** Exit cooldown *)

Ltac mode_simp Hr :=
  repeat (progress (fsimp; rewrite ?Hr; unfold exited_mode, idle_mode)).

Lemma end_session_exited e s i j :
  session s i j ->
  exists s1,
    end_session e s = Ok (true, s1)
    /\ reorder_mode s1 = exited_mode (cooldown_window e) (reorder_mode s)
    /\ 0 <= current_index s1 < len (apps s1)
    /\ is_in_menu s1 = is_in_menu s /\ env s1 = env s.
Proof.
  intros (Hact & Hsel & Htgt & Hi & Hj & Hc).
  destruct e; cbn [end_session cooldown_window].
  - destruct (Z.eq_dec i j) as [<-|Hne].
    + destruct (confirm_reorder_same s i) as (new_tiles & ->); try done; [lia|].
      eexists. split; [reflexivity|]. split; [reflexivity|].
      split; [|split; reflexivity].
      change (0 <= (if len (apps s) <=? current_index s then 0
                    else current_index s) < len (apps s)).
      destruct (Z.leb_spec (len (apps s)) (current_index s)); lia.
    + destruct (confirm_reorder_moved s i j) as (x & new_tiles & _ & -> & _);
        try done.
      eexists. split; [reflexivity|]. split; [reflexivity|].
      split; [|split; reflexivity].
      change (0 <= j < len (py_insert (delete (Z.to_nat i) (apps s)) j x)).
      rewrite len_py_insert, len_delete by (unfold len in *; lia). lia.
  - destruct (cancel_reorder_spec s i) as (new_tiles & -> & _); try done.
    eexists. split; [reflexivity|]. split; [reflexivity|].
    split; [|split; reflexivity].
    change (0 <= i < len (apps s)). lia.
Qed.

Lemma elapse_within w r0 dt s :
  reorder_mode s = exited_mode w r0 -> 0 <= dt < w ->
  elapse dt s = Ok (tt, set_reorder_mode (exited_mode (w - dt) r0) s).
Proof.
  intros Hr Hdt. unfold elapse. msimp. rewrite Hr. unfold exited_mode. fsimp.
  destruct (Z.ltb_spec dt w); [|lia]. fsimp. rewrite Hr. reflexivity.
Qed.

Lemma elapse_after w r0 dt s :
  reorder_mode s = exited_mode w r0 -> w <= dt ->
  elapse dt s = Ok (tt, set_reorder_mode (idle_mode r0) s).
Proof.
  intros Hr Hdt. unfold elapse, _clear_exit_cooldown. msimp.
  rewrite Hr. unfold exited_mode. fsimp.
  destruct (Z.ltb_spec dt w); [lia|]. fsimp. rewrite Hr. reflexivity.
Qed.

Lemma enhanced_handle_button_blocked b ticks now s :
  recently_exited (reorder_mode s) = true ->
  enhanced_handle_button b ticks now s = Ok (tt, s).
Proof.
  intros Hex. unfold enhanced_handle_button. munfold. rewrite Hex. reflexivity.
Qed.

Lemma original_key_press_R s :
  exists s', original_key_press Key_R false s = Ok (tt, s')
    /\ reorder_mode s' = reorder_mode s.
Proof.
  unfold original_key_press, keyPressEvent. munfold.
  destruct (inputs_enabled s); cbn [negb]; [|eauto].
  destruct (progress_dialog_visible (env s)); [eauto|].
  cbn [andb]. eexists. split; reflexivity.
Qed.

Lemma reentry_rejected_during_cooldown w r0 s :
  reorder_mode s = exited_mode w r0 -> reentry_rejected s.
Proof.
  intros Hr. unfold reentry_rejected. split; [|split; [|split]].
  - unfold start_long_press. msimp. rewrite Hr. unfold exited_mode. fsimp.
    rewrite !andb_false_r. cbn [andb]. reflexivity.
  - intros. apply enhanced_handle_button_blocked. rewrite Hr. reflexivity.
  - unfold enhanced_key_press. msimp. cbn [bool_decide decide_rel Key_eq_dec].
    rewrite bool_decide_true by reflexivity.
    destruct (active_modal_or_popup (env s) || is_in_menu s);
      [apply original_key_press_R|].
    rewrite Hr. unfold exited_mode. fsimp. rewrite andb_false_r.
    eexists. split; [reflexivity | exact Hr].
  - intros b now. unfold handle_joypad_button. msimp. mode_simp Hr.
    match goal with |- context [if ?c then _ else _] => destruct c end;
      [eexists; split; [reflexivity|]; mode_simp Hr; done|].
    mode_simp Hr.
    destruct ((b =? 5) || (b =? 10)); mode_simp Hr;
      [|eexists; split; [reflexivity|]; mode_simp Hr; done].
    destruct (active_modal_or_popup (env s) || is_in_menu s); mode_simp Hr;
      [eexists; split; [reflexivity|]; mode_simp Hr; done|].
    rewrite andb_false_r.
    eexists; split; [reflexivity|]; mode_simp Hr; done.
Qed.

Lemma activate_reorder_idle s :
  is_active (reorder_mode s) = false ->
  truthy (apps s) = true -> is_in_menu s = false ->
  active_modal_or_popup (env s) = false ->
  0 <= current_index s < len (apps s) ->
  _activate_reorder s
  = Ok (tt,
        set_reorder_mode
          (set_target_index (Some (current_index s))
             (set_selected_index (Some (current_index s))
                (set_is_active true
                   (set_long_press_timer None (reorder_mode s))))) s).
Proof.
  intros Hact Happs Hmenu Hdlg Hc.
  unfold _activate_reorder, apps_getitem. msimp.
  rewrite Happs, Hact, Hmenu, Hdlg. fsimp.
  destruct (py_getitem_ok (apps s) (current_index s) Hc) as (a & -> & _).
  reflexivity.
Qed.

Lemma reentry_succeeds_when_idle r0 s :
  reorder_mode s = idle_mode r0 ->
  truthy (apps s) = true -> is_in_menu s = false ->
  active_modal_or_popup (env s) = false ->
  0 <= current_index s < len (apps s) ->
  reentry_succeeds s.
Proof.
  intros Hr Happs Hmenu Hdlg Hc. unfold reentry_succeeds.
  assert (Hact : is_active (reorder_mode s) = false) by (by rewrite Hr).
  split; [|split].
  - unfold enhanced_key_press. msimp.
    rewrite bool_decide_true by reflexivity.
    repeat (progress (mode_simp Hr; rewrite ?Hdlg, ?Hmenu, ?Happs)).
    rewrite activate_reorder_idle by done.
    eexists. split; reflexivity.
  - unfold start_long_press. msimp.
    repeat (progress (mode_simp Hr; rewrite ?Hdlg, ?Hmenu, ?Happs)).
    eexists. eexists. split; [reflexivity|]. split; [reflexivity|].
    unfold elapse. msimp. rewrite Z.ltb_irrefl.
    rewrite activate_reorder_idle by done.
    split; reflexivity.
  - intros b ticks now Hb Hdb. unfold debounce_passed in Hdb.
    assert (Hdeb : match last_button_times r0 !! b with
                   | Some t => Qltb (now - t) (3 # 10)
                   | None => false
                   end = false).
    { rewrite Hr in Hdb. unfold idle_mode in Hdb. fsimp.
      destruct (last_button_times r0 !! b); done. }
    assert (Htog : (b =? 5) || (b =? 10) = true)
      by (destruct Hb as [-> | ->]; done).
    unfold enhanced_handle_button, handle_joypad_button. msimp.
    repeat (progress (mode_simp Hr;
                      rewrite ?Hdeb, ?Htog, ?Hdlg, ?Hmenu, ?Happs)).
    rewrite activate_reorder_idle by done.
    eexists. split; reflexivity.
Qed.

(** C8 (cooldown gating). A well-formed session that is confirmed or
    cancelled returns true and starts the exit cooldown (1000 ms after a
    confirm, 500 ms after a cancel).  When less than that has passed, the flag
    is still set and every way of re-entering reorder mode is refused: the
    long-press start and every controller button are no-ops, the R key and
    the toggle buttons leave the session inactive.  When the window has
    passed, the flag is cleared and, with a non-empty store, no menu and no
    dialog, every way of entering works again. *)
Theorem reentry_gated_by_exit_cooldown :
  forall (s : TVLauncher) (i j : Z) (e : SessionEnd),
    session s i j ->
    exists s1,
      end_session e s = Ok (true, s1)
      /\ (forall dt, 0 <= dt < cooldown_window e ->
          exists s2,
            elapse dt s1 = Ok (tt, s2)
            /\ recently_exited (reorder_mode s2) = true
            /\ reentry_rejected s2)
      /\ (forall dt, cooldown_window e <= dt ->
          exists s2,
            elapse dt s1 = Ok (tt, s2)
            /\ recently_exited (reorder_mode s2) = false
            /\ (truthy (apps s2) = true -> is_in_menu s2 = false ->
                active_modal_or_popup (env s2) = false ->
                reentry_succeeds s2)).
Proof.
  intros s i j e Hs.
  destruct (end_session_exited e s i j Hs) as (s1 & Hrun & Hr & Hc & _).
  exists s1. split; [exact Hrun|]. split.
  - intros dt Hdt. rewrite (elapse_within _ _ dt s1 Hr Hdt).
    eexists. split; [reflexivity|]. split; [reflexivity|].
    eapply reentry_rejected_during_cooldown. reflexivity.
  - intros dt Hdt. rewrite (elapse_after _ _ dt s1 Hr Hdt).
    eexists. split; [reflexivity|]. split; [reflexivity|].
    intros Happs Hmenu Hdlg.
    eapply reentry_succeeds_when_idle; first [done | reflexivity].
Qed.

